(** * eci_to_ecef: ECI to ECEF frame conversion

    A shallow embedding of [eci_to_ecef.py] and the properties of its
    three-stage pipeline:

    - [ymdhms_to_julian_date]: civil date and time to Julian Date,
    - [gst_from_julian_date]: Julian Date to Greenwich Sidereal Time,
    - [eci_to_ecef]: rotation of the position vector about the Z axis,

    together with the command-line driver [main].

    Number model.  Python [int] is [Z].  Python [float] is modelled by the
    real numbers [R]: every arithmetic operation, [math.cos], [math.sin] and
    [math.radians] is the exact real operation, so rounding, overflow,
    infinities and NaN are outside this model.  Module [Binary64] embeds
    the Julian Date stage a second time, on IEEE 754 binary64 numbers, to
    evaluate the concrete scenarios on the bits Python computes and to
    decide when that stage raises [OverflowError], the one exception of the
    pipeline that depends on magnitudes. *)

From Stdlib Require Import Reals ZArith List Ascii String Lra Lia Bool.
From Stdlib Require Import Floats.
Import ListNotations.

Local Open Scope Z_scope.
Local Open Scope R_scope.

(** ** Python numeric primitives *)

Module PyNum.

(** [int(x)] on a float: truncation toward zero. *)
Definition int_of_float (x : R) : Z :=
  if Rle_dec 0 x then Zfloor x else Zceil x.

(** [a // b] on ints: floor division (rounds toward negative infinity).
    [Z.div] has the same rounding; Python raises on [b = 0], which no call
    site in this program can reach (the divisors are the literals 100, 4). *)
Definition floordiv (a b : Z) : Z := (a / b)%Z.

(** [x % y] on floats: the result takes the sign of the divisor, that is
    [x - y * floor (x / y)].  Python raises on [y = 0]; the only divisor in
    this program is the literal 24. *)
Definition float_mod (x y : R) : R := x - y * IZR (Zfloor (x / y)).

(** [math.radians(x)]: degrees to radians. *)
Definition radians (x : R) : R := x * (PI / 180).

End PyNum.

Import PyNum.

(** ** The three pipeline stages *)

(** Lines 30-41. *)
Definition ymdhms_to_julian_date
    (year month day hour minute : Z) (second : R) : R :=
  let '(year, month) :=
    if (month <=? 2)%Z then ((year - 1)%Z, (month + 12)%Z) else (year, month) in
  let A := floordiv year 100 in
  let B := (2 - A + floordiv A 4)%Z in
  let jd_int :=
    IZR (int_of_float (365.25 * IZR (year + 4716))
         + int_of_float (30.6001 * IZR (month + 1)) + day + B) - 1524.5 in
  let frac_day := (IZR hour + IZR minute / 60.0 + second / 3600.0) / 24.0 in
  jd_int + frac_day.

(** Lines 44-56. *)
Definition gst_from_julian_date (julian_date : R) : R :=
  let JD2000 := 2451545.0 in
  let T := (julian_date - JD2000) / 36525.0 in
  let GST_sec :=
    (280.46061837 + 360.98564736629 * (julian_date - JD2000)
     + T * T * (0.000387933 - T / 38710000)) * 3600 in
  let GST_hours := float_mod (GST_sec / 3600) 24 in
  let GST_rad := radians (GST_hours * 15) - 1.02581572 in
  GST_rad.

(** Lines 59-78. *)
Definition eci_to_ecef (eci_x_km eci_y_km eci_z_km gst_rad : R) : R * R * R :=
  let ecef_x_km := ((cos gst_rad) * eci_x_km) + ((sin gst_rad) * eci_y_km) in
  let ecef_y_km := ((- sin gst_rad) * eci_x_km) + ((cos gst_rad) * eci_y_km) in
  let ecef_z_km := eci_z_km in
  (ecef_x_km, ecef_y_km, ecef_z_km).

(** ** The Julian Date stage on binary64 *)

Module Binary64.

#[local] Set Warnings "-inexact-float".

(** Conversion of an int operand in mixed arithmetic: round to nearest,
    ties to even; [None] is Python's [OverflowError]. *)
Definition float_of_int (z : Z) : option float :=
  let x := SF2Prim (binary_normalize prec emax z 0 false) in
  if is_finite x then Some x else None.

(** [int(x)]: truncation toward zero; [None] is the error Python raises on
    an infinity or a NaN. *)
Definition int_of_float (x : float) : option Z :=
  match Prim2SF x with
  | S754_zero _ => Some 0%Z
  | S754_finite s m e =>
      let q := if (0 <=? e)%Z then (Z.pos m * 2 ^ e)%Z
               else Z.quot (Z.pos m) (2 ^ (- e)) in
      Some (if s then (- q)%Z else q)
  | S754_infinity _ | S754_nan => None
  end.

Definition and_then {A B : Type} (m : option A) (k : A -> option B)
  : option B :=
  match m with
  | Some a => k a
  | None => None
  end.

(** Lines 30-41, with every float operation rounded as IEEE 754
    prescribes and in the order Python evaluates them. *)
Definition ymdhms_to_julian_date
    (year month day hour minute : Z) (second : float) : option float :=
  let '(year, month) :=
    if (month <=? 2)%Z then ((year - 1)%Z, (month + 12)%Z) else (year, month) in
  let A := (year / 100)%Z in
  let B := (2 - A + A / 4)%Z in
  and_then (float_of_int (year + 4716)) (fun y =>
  and_then (int_of_float (365.25 * y)%float) (fun days_y =>
  and_then (float_of_int (month + 1)) (fun m =>
  and_then (int_of_float (30.6001 * m)%float) (fun days_m =>
  and_then (float_of_int (days_y + days_m + day + B)) (fun n =>
  let jd_int := (n - 1524.5)%float in
  and_then (float_of_int minute) (fun mi =>
  and_then (float_of_int hour) (fun h =>
  let frac_day := ((h + mi / 60.0 + second / 3600.0) / 24.0)%float in
  Some (jd_int + frac_day)%float))))))).

(** Whether lines 38-39 raise [OverflowError], which they do when an int
    operand is too large to convert to a float or when [int] is applied to
    a product that overflowed to an infinity.  Every [None] of the
    converter above stands for that exception: [int] never meets a NaN
    here, its operand being the product of a finite literal and a finite
    float.  The seconds are a float already and decide nothing, so they are
    taken to be zero. *)
Definition raises_overflow (year month day hour minute : Z) : bool :=
  match ymdhms_to_julian_date year month day hour minute 0 with
  | Some _ => false
  | None => true
  end.

End Binary64.

(** ** The command-line driver *)

(** What a run can raise: [sys.exit(status)], [int] or [float] applied to
    non-numeric text, a list index out of range, and an int too large for
    a float (or a float too large for an int) in the Julian Date stage. *)
Inductive exception : Type :=
| SystemExit (status : Z)
| ValueError (text : string)
| IndexError
| OverflowError.

(** A computation threads the lines written to standard output so far and
    either returns a value or raises; what was printed before a raise stays
    printed. *)
Definition Py (A : Type) : Type :=
  list string -> (exception + A) * list string.

Definition ret {A : Type} (a : A) : Py A := fun out => (inr a, out).

Definition raise {A : Type} (e : exception) : Py A := fun out => (inl e, out).

Definition bind {A B : Type} (m : Py A) (k : A -> Py B) : Py B :=
  fun out =>
    match m out with
    | (inl e, out') => (inl e, out')
    | (inr a, out') => k a out'
    end.

Notation "x <- m ;; k" := (bind m (fun x => k))
  (at level 61, m at next level, right associativity).
Notation "m ;; k" := (bind m (fun _ => k))
  (at level 61, right associativity).

Definition print (line : string) : Py unit :=
  fun out => (inr tt, out ++ [line]).

Definition sys_exit (status : Z) : Py unit := raise (SystemExit status).

Definition usage : string :=
  "Usage: python3 eci_to_ecef.py year month day hour minute second eci_x_km eci_y_km eci_z_km".

(** The call of line 99.  The converter is total on the real numbers; the
    exception that its lines 38-39 can raise is decided on binary64, where
    it arises. *)
Definition call_ymdhms_to_julian_date
    (year month day hour minute : Z) (second : R) : Py R :=
  if Binary64.raises_overflow year month day hour minute
  then raise OverflowError
  else ret (ymdhms_to_julian_date year month day hour minute second).

Section Main.

(** The text-to-number built-ins [int(s)] and [float(s)] ([None] when
    Python raises [ValueError]) and the decimal rendering that [print]
    applies to a float are properties of the Python runtime; the driver is
    embedded over arbitrary ones. *)
Variable parse_int : string -> option Z.
Variable parse_float : string -> option R.
Variable float_str : R -> string.

Definition int_ (text : string) : Py Z :=
  match parse_int text with
  | Some z => ret z
  | None => raise (ValueError text)
  end.

Definition float_ (text : string) : Py R :=
  match parse_float text with
  | Some x => ret x
  | None => raise (ValueError text)
  end.

(** [argv[i]]. *)
Definition item (argv : list string) (i : nat) : Py string :=
  match nth_error argv i with
  | Some text => ret text
  | None => raise IndexError
  end.

(** Lines 81-110. *)
Definition main (sys_argv : list string) : Py unit :=
  (if negb (List.length sys_argv =? 10)%nat
   then print usage ;; sys_exit 1
   else ret tt) ;;
  year <- (a <- item sys_argv 1 ;; int_ a) ;;
  month <- (a <- item sys_argv 2 ;; int_ a) ;;
  day <- (a <- item sys_argv 3 ;; int_ a) ;;
  hour <- (a <- item sys_argv 4 ;; int_ a) ;;
  minute <- (a <- item sys_argv 5 ;; int_ a) ;;
  second <- (a <- item sys_argv 6 ;; float_ a) ;;
  eci_x_km <- (a <- item sys_argv 7 ;; float_ a) ;;
  eci_y_km <- (a <- item sys_argv 8 ;; float_ a) ;;
  eci_z_km <- (a <- item sys_argv 9 ;; float_ a) ;;
  jd <- call_ymdhms_to_julian_date year month day hour minute second ;;
  let gst_rad := gst_from_julian_date jd in
  let '(ecef_x_km, ecef_y_km, ecef_z_km) :=
    eci_to_ecef eci_x_km eci_y_km eci_z_km gst_rad in
  print (float_str ecef_x_km) ;;
  print (float_str ecef_y_km) ;;
  print (float_str ecef_z_km).

End Main.

(** ** The Julian Date formula as the specification words it *)

(** The specification's formula with every integer division truncating
    toward zero ([Z.quot]), as its text says.  [round] is the reading given
    to the "floor" of the two products. *)
Definition meeus_julian_date (round : R -> Z)
    (year month day hour minute : Z) (second : R) : R :=
  let '(year, month) :=
    if (month <=? 2)%Z then ((year - 1)%Z, (month + 12)%Z) else (year, month) in
  let A := Z.quot year 100 in
  let B := (2 - A + Z.quot A 4)%Z in
  IZR (round (365.25 * IZR (year + 4716)))
  + IZR (round (30.6001 * IZR (month + 1)))
  + IZR day + IZR B - 1524.5
  + (IZR hour + IZR minute / 60 + second / 3600) / 24.

(** [argv[i]] exists and [parse] turns it into [v]. *)
Definition argument {A : Type} (parse : string -> option A)
    (argv : list string) (i : nat) (v : A) : Prop :=
  exists text, nth_error argv i = Some text /\ parse text = Some v.

(** Whether the parser that [main] applies to [sys.argv[i]] ([int] for
    the entries 1 to 5, [float] for the entries 6 to 9) accepts [text]. *)
Definition accepts (parse_int : string -> option Z)
    (parse_float : string -> option R) (i : nat) (text : string) : bool :=
  if (i <=? 5)%nat
  then match parse_int text with Some _ => true | None => false end
  else match parse_float text with Some _ => true | None => false end.

(** ** A runtime for closed runs of the driver *)

(** The texts of the concrete scenario of the specification, and no other,
    are understood. *)
Definition scenario_int (text : string) : option Z :=
  if String.eqb text "2024" then Some 2024%Z
  else if String.eqb text "1" then Some 1%Z
  else if String.eqb text "0" then Some 0%Z
  else None.

Definition scenario_float (text : string) : option R :=
  if String.eqb text "7000" then Some 7000
  else if String.eqb text "0" then Some 0
  else None.

Definition scenario_str (x : R) : string := "<float>".

Definition scenario_argv : list string :=
  ["eci_to_ecef.py"; "2024"; "1"; "1"; "0"; "0"; "0"; "7000"; "0"; "0"]%string.

(** Unsigned decimal numerals, a fragment of what [int(s)] accepts, and
    the numeral of 10^400. *)
Fixpoint decimal_digits (acc : Z) (text : string) : option Z :=
  match text with
  | EmptyString => Some acc
  | String c rest =>
      let n := Z.of_nat (Ascii.nat_of_ascii c) in
      if ((48 <=? n) && (n <=? 57))%Z
      then decimal_digits (10 * acc + (n - 48)) rest
      else None
  end.

Definition decimal_int (text : string) : option Z :=
  match text with
  | EmptyString => None
  | _ => decimal_digits 0 text
  end.

Fixpoint zeros (n : nat) : string :=
  match n with
  | O => EmptyString
  | S n' => String "0"%char (zeros n')
  end.

Definition huge_year_argv : list string :=
  ["eci_to_ecef.py"; String "1"%char (zeros 400);
   "1"; "1"; "0"; "0"; "0"; "7000"; "0"; "0"]%string.

(** ** Reference notions for the calendar and for vectors *)

(** The Gregorian leap-year rule and month lengths, on astronomical year
    numbers (the year before year 1 is year 0). *)
Definition is_leap_year (y : Z) : bool :=
  ((y mod 4 =? 0)%Z && negb (y mod 100 =? 0)%Z) || (y mod 400 =? 0)%Z.

Definition days_in_month (y m : Z) : Z :=
  if (m =? 2)%Z then (if is_leap_year y then 29 else 28)%Z
  else if ((m =? 4) || (m =? 6) || (m =? 9) || (m =? 11))%Z then 30%Z
  else 31%Z.

(** The month that follows month [m] of year [y]. *)
Definition next_month (y m : Z) : Z * Z :=
  if (m =? 12)%Z then ((y + 1)%Z, 1%Z) else (y, (m + 1)%Z).

(** Euclidean inner product of two position vectors. *)
Definition dot (u v : R * R * R) : R :=
  let '(ux, uy, uz) := u in
  let '(vx, vy, vz) := v in
  ux * vx + uy * vy + uz * vz.

(** ** Truncation and modulo facts *)

Lemma int_of_float_nonneg (x : R) (z : Z) :
  IZR z <= x < IZR z + 1 -> (0 <= z)%Z -> int_of_float x = z.
Proof.
  intros Hx Hz. unfold int_of_float.
  apply IZR_le in Hz.
  destruct (Rle_dec 0 x) as [_ | Hn]; [now apply Zfloor_eq | lra].
Qed.

Lemma float_mod_range (x y : R) : 0 < y -> 0 <= float_mod x y < y.
Proof.
  intros Hy. unfold float_mod.
  pose proof (Zfloor_bound (x / y)) as [Hlo Hhi].
  assert (Hxy : x = (x / y) * y) by (field; lra).
  split; nra.
Qed.

Lemma float_mod_congruent (x y : R) :
  x = y * IZR (Zfloor (x / y)) + float_mod x y.
Proof. unfold float_mod. ring. Qed.

(** [a // b] is the mathematical floor of the real quotient. *)
Lemma floordiv_Zfloor (a b : Z) :
  (0 < b)%Z -> floordiv a b = Zfloor (IZR a / IZR b).
Proof.
  intros Hb. unfold floordiv. symmetry. apply Zfloor_eq.
  assert (Hb' : 0 < IZR b) by now apply IZR_lt.
  pose proof (Z.div_mod a b ltac:(lia)) as Hdm.
  pose proof (Z.mod_pos_bound a b Hb) as [Hlo Hhi].
  apply IZR_le in Hlo. apply IZR_lt in Hhi.
  assert (Ha : IZR a = IZR b * IZR (a / b) + IZR (a mod b)).
  { rewrite <- mult_IZR, <- plus_IZR. now f_equal. }
  split.
  - apply (Rmult_le_reg_r (IZR b)); [assumption|].
    replace (IZR a / IZR b * IZR b) with (IZR a) by (field; lra). nra.
  - apply (Rmult_lt_reg_r (IZR b)); [assumption|].
    replace (IZR a / IZR b * IZR b) with (IZR a) by (field; lra). nra.
Qed.

(** Floor and truncating division in the leap-correction term [B]: the two
    agree unless the year is a negative multiple of 100 that is not a
    multiple of 400. *)
Lemma leap_term_quot_div (y : Z) :
  (2 - Z.quot y 100 + Z.quot (Z.quot y 100) 4
   = 2 - y / 100 + (y / 100) / 4
   <-> 0 <= y \/ y mod 100 <> 0 \/ y mod 400 = 0)%Z.
Proof.
  Z.to_euclidean_division_equations. lia.
Qed.

Lemma int_of_float_nonneg_floor (x : R) : 0 <= x -> int_of_float x = Zfloor x.
Proof.
  intros Hx. unfold int_of_float. now destruct (Rle_dec 0 x).
Qed.

Lemma int_of_float_neg (x : R) (z : Z) :
  IZR z - 1 < x <= IZR z -> (z <= 0)%Z -> x < 0 -> int_of_float x = z.
Proof.
  intros Hx Hz Hn. unfold int_of_float.
  destruct (Rle_dec 0 x) as [Hp | _]; [lra | now apply Zceil_eq].
Qed.

(** [int] rounds a negative product up, toward zero, where a floor rounds
    it down: for the year -4717 the first product is -365.25. *)
Example int_of_float_year_minus_4717 :
  int_of_float (365.25 * IZR (-4717 + 4716)) = (-365)%Z
  /\ Zfloor (365.25 * IZR (-4717 + 4716)) = (-366)%Z.
Proof.
  split.
  - apply int_of_float_neg; simpl; try split; (lra || lia).
  - apply Zfloor_eq. simpl. split; lra.
Qed.

(** ** Where the Julian Date stage raises *)

(** The seconds do not decide whether the binary64 converter fails. *)
Lemma raises_overflow_any_second
    (year month day hour minute : Z) (second : float) :
  Binary64.raises_overflow year month day hour minute
  = match Binary64.ymdhms_to_julian_date year month day hour minute second with
    | Some _ => false
    | None => true
    end.
Proof.
  unfold Binary64.raises_overflow, Binary64.ymdhms_to_julian_date,
    Binary64.and_then.
  destruct (month <=? 2)%Z;
    repeat match goal with
      | |- context [match ?m with Some _ => _ | None => None end] =>
          destruct m; try reflexivity
      end.
Qed.

(** The year 10^300 still converts; for 10^307 the product with 365.25
    overflows to an infinity that [int] refuses; 10^400 is itself too large
    for a float. *)
Example raises_overflow_years :
  Binary64.raises_overflow (10 ^ 300) 3 1 0 0 = false
  /\ Binary64.raises_overflow (10 ^ 307) 3 1 0 0 = true
  /\ Binary64.raises_overflow (10 ^ 400) 3 1 0 0 = true
  /\ Binary64.raises_overflow 2024 1 1 0 (10 ^ 400) = true.
Proof. vm_compute. repeat split. Qed.

(** ** The Julian Date stage *)

Lemma adjusted_year_month (year month : Z) :
  (if (month <=? 2)%Z then ((year - 1)%Z, (month + 12)%Z) else (year, month))
  = ((if (month <=? 2)%Z then year - 1 else year)%Z,
     (if (month <=? 2)%Z then month + 12 else month)%Z).
Proof. now destruct (month <=? 2)%Z. Qed.

(** C2, as the code computes it.  With [(y, m)] the year and month after
    the January/February adjustment, the converter returns
    [int(365.25*(y+4716)) + int(30.6001*(m+1)) + day + B - 1524.5
     + (hour + minute/60 + second/3600)/24]
    where the two products are truncated toward zero and
    [A = floor(y/100)], [B = 2 - A + floor(A/4)] are mathematical floors
    (rounding toward negative infinity).  The result coincides with the
    all-truncating formula of the specification exactly when [y] is
    non-negative, or not a multiple of 100, or a multiple of 400. *)
Theorem ymdhms_to_julian_date_meeus
    (year month day hour minute : Z) (second : R) :
  let y := (if (month <=? 2)%Z then year - 1 else year)%Z in
  let m := (if (month <=? 2)%Z then month + 12 else month)%Z in
  let A := Zfloor (IZR y / 100) in
  let B := (2 - A + Zfloor (IZR A / 4))%Z in
  ymdhms_to_julian_date year month day hour minute second
  = IZR (int_of_float (365.25 * IZR (y + 4716)))
    + IZR (int_of_float (30.6001 * IZR (m + 1)))
    + IZR day + IZR B - 1524.5
    + (IZR hour + IZR minute / 60 + second / 3600) / 24
  /\ (ymdhms_to_julian_date year month day hour minute second
      = meeus_julian_date int_of_float year month day hour minute second
      <-> (0 <= y \/ y mod 100 <> 0 \/ y mod 400 = 0)%Z).
Proof.
  intros y m A B.
  unfold ymdhms_to_julian_date, meeus_julian_date.
  rewrite adjusted_year_month. fold y m.
  rewrite !(floordiv_Zfloor _ _) by lia. fold A. fold B.
  split.
  - rewrite !plus_IZR. lra.
  - rewrite <- (leap_term_quot_div y).
    assert (HB : B = (2 - y / 100 + (y / 100) / 4)%Z).
    { unfold B, A. rewrite <- !floordiv_Zfloor by lia. reflexivity. }
    rewrite <- HB.
    set (B' := (2 - Z.quot y 100 + Z.quot (Z.quot y 100) 4)%Z).
    rewrite !plus_IZR.
    split.
    + intros H. apply eq_IZR. lra.
    + intros H. rewrite H. lra.
Qed.

(** The converter at 2024-01-01 00:00:00 satisfies the side condition of
    [ymdhms_to_julian_date_meeus], so there it agrees with the
    specification's own formula. *)
Lemma ymdhms_to_julian_date_meeus_2024 :
  ymdhms_to_julian_date 2024 1 1 0 0 0
  = meeus_julian_date int_of_float 2024 1 1 0 0 0.
Proof.
  apply (proj2 (ymdhms_to_julian_date_meeus 2024 1 1 0 0 0)).
  left. simpl. lia.
Defined.

Ltac eval_int_of_float z :=
  rewrite (int_of_float_nonneg _ z) by (try split; (lra || lia)).

Lemma julian_date_year_minus_100 :
  ymdhms_to_julian_date (-100) 3 1 0 0 0 = 1684594.5.
Proof.
  unfold ymdhms_to_julian_date, floordiv. simpl.
  eval_int_of_float 1685994%Z. eval_int_of_float 122%Z.
  simpl. lra.
Qed.

(** C2 as stated fails for 1 March of the year -100: the code's floor
    division gives [B = 2], truncating division gives [B = 3], whichever
    way the "floor" of the two (positive) products is read. *)
Lemma ymdhms_to_julian_date_not_truncating :
  ymdhms_to_julian_date (-100) 3 1 0 0 0
    <> meeus_julian_date int_of_float (-100) 3 1 0 0 0
  /\ ymdhms_to_julian_date (-100) 3 1 0 0 0
    <> meeus_julian_date Zfloor (-100) 3 1 0 0 0.
Proof.
  rewrite julian_date_year_minus_100.
  unfold meeus_julian_date. simpl.
  eval_int_of_float 1685994%Z. eval_int_of_float 122%Z.
  rewrite (Zfloor_eq 1685994) by lra.
  rewrite (Zfloor_eq 122) by lra.
  split; lra.
Qed.

Lemma julian_date_2024_01_01_real :
  ymdhms_to_julian_date 2024 1 1 0 0 0 = 2460310.5.
Proof.
  unfold ymdhms_to_julian_date, floordiv. simpl.
  eval_int_of_float 2461419%Z. eval_int_of_float 428%Z.
  simpl. lra.
Qed.

(** C8: the converter maps 2024-01-01 00:00:00 to Julian Date 2460310.5,
    over the reals and bit for bit on binary64. *)
Theorem ymdhms_to_julian_date_2024_01_01 :
  ymdhms_to_julian_date 2024 1 1 0 0 0 = 2460310.5
  /\ Binary64.ymdhms_to_julian_date 2024 1 1 0 0 0%float
     = Some 2460310.5%float.
Proof.
  split; [exact julian_date_2024_01_01_real | vm_compute; reflexivity].
Qed.

(** The binary64 converter at the input that separates floor from
    truncating division returns the same 1684594.5 as the real-number
    model. *)
Example binary64_julian_date_year_minus_100 :
  Binary64.ymdhms_to_julian_date (-100) 3 1 0 0 0%float
  = Some 1684594.5%float.
Proof. vm_compute. reflexivity. Qed.

(** ** The sidereal-time stage *)

(** C3: the calculator returns [radians (GST_hours * 15) - 1.02581572] with
    [T], [GST_seconds] and [GST_hours] as the specification gives them; the
    reduction modulo 24 is the only one, and nothing reduces the angle after
    the bias is subtracted. *)
Theorem gst_from_julian_date_formula (JD : R) :
  let T := (JD - 2451545.0) / 36525.0 in
  let GST_seconds :=
    (280.46061837 + 360.98564736629 * (JD - 2451545.0)
     + T ^ 2 * (0.000387933 - T / 38710000)) * 3600 in
  let GST_hours :=
    GST_seconds / 3600 - 24 * IZR (Zfloor (GST_seconds / 3600 / 24)) in
  gst_from_julian_date JD = GST_hours * 15 * (PI / 180) - 1.02581572.
Proof.
  intros T GST_seconds GST_hours.
  unfold GST_hours, GST_seconds.
  change (T ^ 2) with (T * (T * 1)). rewrite Rmult_1_r.
  reflexivity.
Qed.

(** C4: the hour value the calculator converts to radians is the true
    modulo of [GST_sec / 3600] by 24: it differs from [GST_sec / 3600] by a
    whole number of 24-hour turns and lies in [0, 24), whatever the sign of
    [GST_sec] (hence also for Julian Dates before J2000). *)
Theorem gst_hours_true_modulo (JD : R) :
  let T := (JD - 2451545.0) / 36525.0 in
  let GST_sec :=
    (280.46061837 + 360.98564736629 * (JD - 2451545.0)
     + T * T * (0.000387933 - T / 38710000)) * 3600 in
  exists (GST_hours : R) (turns : Z),
    GST_sec / 3600 = 24 * IZR turns + GST_hours
    /\ 0 <= GST_hours < 24
    /\ GST_hours = float_mod (GST_sec / 3600) 24
    /\ gst_from_julian_date JD = radians (GST_hours * 15) - 1.02581572.
Proof.
  intros T GST_sec.
  exists (float_mod (GST_sec / 3600) 24), (Zfloor (GST_sec / 3600 / 24)).
  repeat split.
  - apply float_mod_congruent.
  - apply float_mod_range; lra.
  - apply float_mod_range; lra.
Qed.

(** One day before the epoch [GST_sec] is negative; the reduced hour value
    is nevertheless positive, about 15.47. *)
Example gst_hours_before_epoch :
  let JD := 2451544.0 in
  let T := (JD - 2451545.0) / 36525.0 in
  let GST_sec :=
    (280.46061837 + 360.98564736629 * (JD - 2451545.0)
     + T * T * (0.000387933 - T / 38710000)) * 3600 in
  GST_sec < 0 /\ 15.47 < float_mod (GST_sec / 3600) 24 < 15.48.
Proof.
  intros JD T GST_sec.
  assert (Hx : -80.53 < GST_sec / 3600 < -80.52).
  { unfold GST_sec, T, JD. split; lra. }
  split; [lra|].
  unfold float_mod.
  rewrite (Zfloor_eq (-4)) by lra.
  lra.
Qed.

(** The returned angle is negative a little before the epoch, at
    JD 2451544.96, where the reduced hour value is about 2.02: nothing
    brings the biased angle back into [0, 2*PI). *)
Example gst_from_julian_date_negative :
  gst_from_julian_date 2451544.96 < 0.
Proof.
  unfold gst_from_julian_date, radians, float_mod.
  match goal with
  | |- context [Zfloor (?x / 24)] =>
      assert (Hx : 266.02 < x < 266.03) by (split; lra);
      rewrite (Zfloor_eq 11 (x / 24)) by lra;
      set (hours := x) in *; clearbody hours
  end.
  pose proof PI_4 as Hpi4. pose proof PI_RGT_0 as Hpi0.
  nra.
Qed.

(** C10: the returned angle lies in [-1.02581572, 2*PI - 1.02581572). *)
Theorem gst_from_julian_date_range (julian_date : R) :
  - 1.02581572 <= gst_from_julian_date julian_date < 2 * PI - 1.02581572.
Proof.
  unfold gst_from_julian_date, radians.
  match goal with
  | |- context [float_mod ?x 24] =>
      pose proof (float_mod_range x 24 ltac:(lra)) as [Hlo Hhi];
      set (h := float_mod x 24) in *
  end.
  pose proof PI_RGT_0 as Hpi.
  split; nra.
Qed.

(** ** The rotation stage *)

(** C1: the operator returns the passive rotation about the Z axis,
    [(cos t * x + sin t * y, - sin t * x + cos t * y, z)]; passive, because
    the input is recovered by turning the output back through the same
    angle. *)
Theorem eci_to_ecef_rotation (eci_x_km eci_y_km eci_z_km theta : R) :
  eci_to_ecef eci_x_km eci_y_km eci_z_km theta
  = (cos theta * eci_x_km + sin theta * eci_y_km,
     - sin theta * eci_x_km + cos theta * eci_y_km,
     eci_z_km)
  /\ let '(ecef_x_km, ecef_y_km, ecef_z_km) :=
       eci_to_ecef eci_x_km eci_y_km eci_z_km theta in
     eci_to_ecef ecef_x_km ecef_y_km ecef_z_km (- theta)
     = (eci_x_km, eci_y_km, eci_z_km).
Proof.
  split; [reflexivity|].
  unfold eci_to_ecef. rewrite cos_neg, sin_neg.
  pose proof (sin2_cos2 theta) as H. unfold Rsqr in H.
  do 2 f_equal.
  - transitivity
      ((sin theta * sin theta + cos theta * cos theta) * eci_x_km);
      [ring | rewrite H; ring].
  - transitivity
      ((sin theta * sin theta + cos theta * cos theta) * eci_y_km);
      [ring | rewrite H; ring].
Qed.

(** C6: the rotation preserves the squared norm in the equatorial plane. *)
Theorem eci_to_ecef_xy_norm (eci_x_km eci_y_km eci_z_km theta : R) :
  let '(ecef_x_km, ecef_y_km, _) :=
    eci_to_ecef eci_x_km eci_y_km eci_z_km theta in
  ecef_x_km ^ 2 + ecef_y_km ^ 2 = eci_x_km ^ 2 + eci_y_km ^ 2.
Proof.
  unfold eci_to_ecef.
  pose proof (sin2_cos2 theta) as H. unfold Rsqr in H.
  transitivity
    ((sin theta * sin theta + cos theta * cos theta)
     * (eci_x_km ^ 2 + eci_y_km ^ 2)); [ring | rewrite H; ring].
Qed.

(** The stages as [main] composes them hand the third component of the
    vector through. *)
Lemma pipeline_z (year month day hour minute : Z) (second x y z : R) :
  snd (eci_to_ecef x y z
         (gst_from_julian_date
            (ymdhms_to_julian_date year month day hour minute second))) = z.
Proof. reflexivity. Qed.

(** ** The driver *)

Section MainFacts.

Variable parse_int : string -> option Z.
Variable parse_float : string -> option R.
Variable float_str : R -> string.

(** C7: with a number of positional arguments other than nine the driver
    prints the usage line, exits with status 1 and does nothing else: the
    outcome is the same for every behaviour of the text parsers, also on
    arguments they would reject, and nothing but the usage line is
    printed. *)
Theorem main_usage_error (prog : string) (args out : list string) :
  List.length args <> 9%nat ->
  main parse_int parse_float float_str (prog :: args) out
  = (inl (SystemExit 1), out ++ [usage]).
Proof.
  intros Hlen. unfold main.
  assert (Hne : negb (List.length (prog :: args) =? 10)%nat = true).
  { apply negb_true_iff, Nat.eqb_neq. simpl. lia. }
  rewrite Hne. reflexivity.
Qed.

Lemma bind_returns {A B : Type} (m : Py A) (k : A -> Py B) out b out' :
  bind m k out = (inr b, out') ->
  exists a out1, m out = (inr a, out1) /\ k a out1 = (inr b, out').
Proof.
  unfold bind. destruct (m out) as [[e | a] out1]; [discriminate|].
  intros H. now exists a, out1.
Qed.

Lemma item_returns (argv : list string) (i : nat) out text out' :
  item argv i out = (inr text, out') ->
  nth_error argv i = Some text /\ out' = out.
Proof.
  unfold item. destruct (nth_error argv i); [|discriminate].
  unfold ret. intros H. now inversion H.
Qed.

Lemma int_returns (text : string) out z out' :
  int_ parse_int text out = (inr z, out') ->
  parse_int text = Some z /\ out' = out.
Proof.
  unfold int_. destruct (parse_int text); [|discriminate].
  unfold ret. intros H. now inversion H.
Qed.

Lemma float_returns (text : string) out x out' :
  float_ parse_float text out = (inr x, out') ->
  parse_float text = Some x /\ out' = out.
Proof.
  unfold float_. destruct (parse_float text); [|discriminate].
  unfold ret. intros H. now inversion H.
Qed.

Lemma arity_check_returns (sys_argv : list string) out (u : unit) out' :
  (if negb (List.length sys_argv =? 10)%nat
   then print usage ;; sys_exit 1
   else ret tt) out = (inr u, out') ->
  List.length sys_argv = 10%nat /\ out' = out.
Proof.
  destruct (List.length sys_argv =? 10)%nat eqn:Hlen; simpl.
  - unfold ret. intros H. inversion H. now apply Nat.eqb_eq in Hlen.
  - discriminate.
Qed.

Lemma read_float_returns (sys_argv : list string) (i : nat) out x out' :
  (a <- item sys_argv i ;; float_ parse_float a) out = (inr x, out') ->
  argument parse_float sys_argv i x /\ out' = out.
Proof.
  intros H. apply bind_returns in H as (a & out1 & Hi & Hf).
  apply item_returns in Hi as [Hi ->].
  apply float_returns in Hf as [Hf ->].
  split; [now exists a | reflexivity].
Qed.

Lemma read_int_returns (sys_argv : list string) (i : nat) out z out' :
  (a <- item sys_argv i ;; int_ parse_int a) out = (inr z, out') ->
  argument parse_int sys_argv i z /\ out' = out.
Proof.
  intros H. apply bind_returns in H as (a & out1 & Hi & Hf).
  apply item_returns in Hi as [Hi ->].
  apply int_returns in Hf as [Hf ->].
  split; [now exists a | reflexivity].
Qed.

Lemma call_returns (year month day hour minute : Z) (second : R) out jd out' :
  call_ymdhms_to_julian_date year month day hour minute second out
  = (inr jd, out') ->
  Binary64.raises_overflow year month day hour minute = false
  /\ jd = ymdhms_to_julian_date year month day hour minute second
  /\ out' = out.
Proof.
  unfold call_ymdhms_to_julian_date.
  destruct (Binary64.raises_overflow year month day hour minute);
    [discriminate|].
  unfold ret. intros H. now inversion H.
Qed.

Ltac read_argument H v Hv :=
  let out1 := fresh "out" in
  apply bind_returns in H as (v & out1 & Hv & H);
  first [ apply read_int_returns in Hv as [Hv ->]
        | apply read_float_returns in Hv as [Hv ->] ].

(** A run that returns had ten entries in [sys.argv], parsed entries 1
    to 9, and printed the three components of the rotated vector. *)
Lemma main_returns (sys_argv out out' : list string) :
  main parse_int parse_float float_str sys_argv out = (inr tt, out') ->
  exists (year month day hour minute : Z)
         (second eci_x_km eci_y_km eci_z_km : R),
    List.length sys_argv = 10%nat
    /\ argument parse_int sys_argv 1 year
    /\ argument parse_int sys_argv 2 month
    /\ argument parse_int sys_argv 3 day
    /\ argument parse_int sys_argv 4 hour
    /\ argument parse_int sys_argv 5 minute
    /\ argument parse_float sys_argv 6 second
    /\ argument parse_float sys_argv 7 eci_x_km
    /\ argument parse_float sys_argv 8 eci_y_km
    /\ argument parse_float sys_argv 9 eci_z_km
    /\ Binary64.raises_overflow year month day hour minute = false
    /\ out' = out ++
         let '(ecef_x_km, ecef_y_km, ecef_z_km) :=
           eci_to_ecef eci_x_km eci_y_km eci_z_km
             (gst_from_julian_date
                (ymdhms_to_julian_date year month day hour minute second)) in
         [float_str ecef_x_km; float_str ecef_y_km; float_str ecef_z_km].
Proof.
  intros H. unfold main in H.
  apply bind_returns in H as (u & out0 & Hlen & H).
  apply arity_check_returns in Hlen as [Hlen ->].
  read_argument H year Hyear. read_argument H month Hmonth.
  read_argument H day Hday. read_argument H hour Hhour.
  read_argument H minute Hminute. read_argument H second Hsecond.
  read_argument H x Hx. read_argument H y Hy. read_argument H z Hz.
  apply bind_returns in H as (jd & out1 & Hjd & H).
  apply call_returns in Hjd as (Hfits & -> & ->).
  exists year, month, day, hour, minute, second, x, y, z.
  repeat (split; [assumption|]).
  unfold eci_to_ecef, bind, print in *.
  inversion H as [Hout]. now rewrite <- !app_assoc.
Qed.

(** C5: the z-component leaves the pipeline as it entered, for every
    timestamp and every vector, and a run of the driver that returns has
    printed three lines of which the third renders the number parsed from
    the ninth positional argument, [eci_z_km] itself. *)
Theorem ecef_z_is_eci_z :
  (forall (year month day hour minute : Z) (second x y z : R),
      snd (eci_to_ecef x y z
             (gst_from_julian_date
                (ymdhms_to_julian_date year month day hour minute second)))
      = z)
  /\ forall (sys_argv out out' : list string),
      main parse_int parse_float float_str sys_argv out = (inr tt, out') ->
      exists (eci_z_km : R) (line_x line_y : string),
        argument parse_float sys_argv 9 eci_z_km
        /\ out' = out ++ [line_x; line_y; float_str eci_z_km].
Proof.
  split; [intros; apply pipeline_z|].
  intros sys_argv out out' H.
  apply main_returns in H
    as (year & month & day & hour & minute & second & x & y & z & H).
  decompose [and] H. subst out'. unfold eci_to_ecef.
  exists z. eexists. eexists. split; [assumption | reflexivity].
Qed.

End MainFacts.

(** The driver run of the concrete scenario returns, so
    [ecef_z_is_eci_z] applies to it: its third line renders the parsed
    ninth argument. *)
Lemma ecef_z_is_eci_z_scenario :
  exists (eci_z_km : R) (line_x line_y : string),
    argument scenario_float scenario_argv 9 eci_z_km
    /\ ["<float>"; "<float>"; "<float>"]%string
       = [] ++ [line_x; line_y; scenario_str eci_z_km].
Proof.
  apply (proj2 (ecef_z_is_eci_z scenario_int scenario_float scenario_str)
           scenario_argv []).
  reflexivity.
Defined.

(** Eight positional arguments, none of them numeric. *)
Lemma main_usage_error_eight :
  main scenario_int scenario_float scenario_str
    ["eci_to_ecef.py"; "a"; "b"; "c"; "d"; "e"; "f"; "g"; "h"]%string []
  = (inl (SystemExit 1), [] ++ [usage]).
Proof.
  apply (main_usage_error scenario_int scenario_float scenario_str
           "eci_to_ecef.py" ["a"; "b"; "c"; "d"; "e"; "f"; "g"; "h"]%string []).
  simpl. lia.
Defined.

(** Ten positional arguments, all of them numeric: the run still ends in
    the usage error. *)
Example main_ten_arguments :
  main scenario_int scenario_float scenario_str (scenario_argv ++ ["0"]%string) []
  = (inl (SystemExit 1), [usage]).
Proof. reflexivity. Qed.

(** The run of the concrete scenario returns after printing three lines. *)
Example main_scenario_returns :
  main scenario_int scenario_float scenario_str scenario_argv []
  = (inr tt, ["<float>"; "<float>"; "<float>"]%string).
Proof. reflexivity. Qed.

(** A non-numeric argument in a well-sized argument vector raises. *)
Example main_parse_error :
  main scenario_int scenario_float scenario_str
    ["eci_to_ecef.py"; "2024"; "Jan"; "1"; "0"; "0"; "0"; "7000"; "0"; "0"]%string
    []
  = (inl (ValueError "Jan"), []).
Proof. reflexivity. Qed.

(** ** Further properties of the Julian Date stage *)

(** The year term: 365.25 days per year, truncated, is 365 days plus one
    every fourth year, as long as the product is not negative. *)
Lemma int_of_float_year_term (n : Z) :
  (0 <= n)%Z -> int_of_float (365.25 * IZR n) = (365 * n + n / 4)%Z.
Proof.
  intros Hn.
  pose proof (Z.div_mod n 4 ltac:(lia)) as Hdm.
  pose proof (Z.mod_pos_bound n 4 ltac:(lia)) as [Hlo Hhi].
  assert (Hr : IZR n = 4 * IZR (n / 4) + IZR (n mod 4)).
  { rewrite <- mult_IZR, <- plus_IZR. now f_equal. }
  apply IZR_le in Hlo.
  assert (Hhi' : IZR (n mod 4) <= 3) by (apply IZR_le; lia).
  apply int_of_float_nonneg.
  - rewrite plus_IZR, mult_IZR. split; lra.
  - pose proof (Z.div_pos n 4 Hn ltac:(lia)). lia.
Qed.

(** The month term for the months 3 to 14 the adjustment produces: the
    literal 30.6001 truncates like the exact 30.6. *)
Lemma int_of_float_month_term (k : Z) :
  (4 <= k <= 15)%Z -> int_of_float (30.6001 * IZR k) = (306 * k / 10)%Z.
Proof.
  intros Hk.
  assert (H : (k = 4 \/ k = 5 \/ k = 6 \/ k = 7 \/ k = 8 \/ k = 9 \/ k = 10
               \/ k = 11 \/ k = 12 \/ k = 13 \/ k = 14 \/ k = 15)%Z) by lia.
  repeat (destruct H as [-> | H]); try subst k;
    match goal with
    | |- _ = ?z => let v := eval vm_compute in z in change z with v
    end;
    (apply int_of_float_nonneg; [split; lra | lia]).
Qed.

(** On a calendar month of a year not before -4715 the converter is the
    integer day count
    [365*Y' + Y'/4 + 306*(M+1)/10 + day + 2 - Y/100 + Y/400 - 1524.5]
    plus the fraction of the day, where [(Y, M)] is the adjusted year and
    month, [Y' = Y + 4716] and every division is a floor. *)
Lemma julian_date_integer_form (year month day hour minute : Z) (second : R) :
  (1 <= month <= 12)%Z -> (-4715 <= year)%Z ->
  let Y := (if (month <=? 2)%Z then year - 1 else year)%Z in
  let M := (if (month <=? 2)%Z then month + 12 else month)%Z in
  ymdhms_to_julian_date year month day hour minute second
  = IZR (365 * (Y + 4716) + (Y + 4716) / 4 + 306 * (M + 1) / 10 + day
         + 2 - Y / 100 + Y / 100 / 4) - 1524.5
    + (IZR hour + IZR minute / 60 + second / 3600) / 24.
Proof.
  intros Hm Hy Y M.
  unfold ymdhms_to_julian_date. rewrite adjusted_year_month. fold Y M.
  assert (HY : (0 <= Y + 4716)%Z) by (unfold Y; destruct (month <=? 2)%Z; lia).
  assert (HM : (4 <= M + 1 <= 15)%Z).
  { unfold M. destruct (month <=? 2)%Z eqn:E;
      [apply Z.leb_le in E | apply Z.leb_gt in E]; lia. }
  rewrite (int_of_float_year_term _ HY), (int_of_float_month_term _ HM).
  unfold floordiv.
  match goal with
  | |- IZR ?a - _ + _ = IZR ?b - _ + _ => replace a with b by lia
  end.
  lra.
Qed.

Lemma is_leap_year_spec (y : Z) :
  is_leap_year y = true
  <-> ((y mod 4 = 0 /\ y mod 100 <> 0) \/ y mod 400 = 0)%Z.
Proof.
  unfold is_leap_year.
  rewrite orb_true_iff, andb_true_iff, negb_true_iff, !Z.eqb_eq, Z.eqb_neq.
  reflexivity.
Qed.

(** The integer form for March to December, and for January and February
    counted as months 13 and 14 of the year before. *)
Lemma julian_date_from_march (year month day hour minute : Z) (second : R) :
  (3 <= month <= 12)%Z -> (-4715 <= year)%Z ->
  ymdhms_to_julian_date year month day hour minute second
  = IZR (365 * (year + 4716) + (year + 4716) / 4 + 306 * (month + 1) / 10
         + day + 2 - year / 100 + year / 100 / 4) - 1524.5
    + (IZR hour + IZR minute / 60 + second / 3600) / 24.
Proof.
  intros Hm Hy.
  rewrite julian_date_integer_form by lia.
  destruct (Z.leb_spec month 2); [lia | reflexivity].
Qed.

Lemma julian_date_before_march
    (year month day hour minute : Z) (second : R) :
  (1 <= month <= 2)%Z -> (-4715 <= year)%Z ->
  ymdhms_to_julian_date year month day hour minute second
  = IZR (365 * (year - 1 + 4716) + (year - 1 + 4716) / 4
         + 306 * (month + 12 + 1) / 10
         + day + 2 - (year - 1) / 100 + (year - 1) / 100 / 4) - 1524.5
    + (IZR hour + IZR minute / 60 + second / 3600) / 24.
Proof.
  intros Hm Hy.
  rewrite julian_date_integer_form by lia.
  destruct (Z.leb_spec month 2); [reflexivity | lia].
Qed.

Lemma days_in_month_cases (y m : Z) :
  (1 <= m <= 12)%Z ->
  (m = 2 /\ days_in_month y m = if is_leap_year y then 29 else 28)%Z
  \/ ((m = 4 \/ m = 6 \/ m = 9 \/ m = 11) /\ days_in_month y m = 30)%Z
  \/ ((m = 1 \/ m = 3 \/ m = 5 \/ m = 7 \/ m = 8 \/ m = 10 \/ m = 12)
      /\ days_in_month y m = 31)%Z.
Proof.
  intros Hm. unfold days_in_month.
  destruct (Z.eqb_spec m 2); [now left|].
  destruct (Z.eqb_spec m 4); [right; left; split; [lia | reflexivity]|].
  destruct (Z.eqb_spec m 6); [right; left; split; [lia | reflexivity]|].
  destruct (Z.eqb_spec m 9); [right; left; split; [lia | reflexivity]|].
  destruct (Z.eqb_spec m 11); [right; left; split; [lia | reflexivity]|].
  right; right. split; [lia | reflexivity].
Qed.

Ltac julian_date_to_Z :=
  match goal with
  | |- IZR ?a - ?c + ?t = IZR ?b - ?c + ?t + IZR ?n =>
      cut (a = b + n)%Z; [intros ->; rewrite plus_IZR; lra |]
  end.

(** X1: consecutive months are as far apart as the Gregorian calendar
    says.  For every calendar month of a year not before -4715, the same
    day and time of the following month lies exactly [days_in_month] days
    later, February counting 29 days in leap years (every fourth year,
    except centuries not divisible by 400). *)
Theorem julian_date_month_length
    (year month day hour minute : Z) (second : R) :
  (1 <= month <= 12)%Z -> (-4715 <= year)%Z ->
  ymdhms_to_julian_date (fst (next_month year month))
    (snd (next_month year month)) day hour minute second
  = ymdhms_to_julian_date year month day hour minute second
    + IZR (days_in_month year month).
Proof.
  intros Hm Hy.
  pose proof (days_in_month_cases year month Hm) as Hd.
  pose proof (is_leap_year_spec year) as Hleap.
  unfold next_month.
  destruct (Z.eqb_spec month 12) as [-> | H12]; cbn [fst snd].
  - (* December to January *)
    rewrite (julian_date_before_march (year + 1) 1) by lia.
    rewrite (julian_date_from_march year 12) by lia.
    julian_date_to_Z. Z.to_euclidean_division_equations; lia.
  - destruct (Z_le_gt_dec month 2) as [Hearly | Hlate].
    + destruct (Z.eq_dec month 1) as [-> | H1].
      * (* January to February *)
        rewrite !julian_date_before_march by lia.
        julian_date_to_Z. Z.to_euclidean_division_equations; lia.
      * (* February to March *)
        assert (month = 2)%Z by lia. subst month.
        rewrite (julian_date_from_march year (2 + 1)) by lia.
        rewrite (julian_date_before_march year 2) by lia.
        julian_date_to_Z.
        destruct Hd as [[_ ->] | [[? _] | [? _]]]; [| lia | lia].
        destruct (is_leap_year year).
        -- destruct (proj1 Hleap eq_refl);
             Z.to_euclidean_division_equations; lia.
        -- assert (Hn : ~ ((year mod 4 = 0 /\ year mod 100 <> 0)
                           \/ year mod 400 = 0)%Z)
             by (intros Hc; apply Hleap in Hc; discriminate).
           Z.to_euclidean_division_equations; lia.
    + (* March to November *)
      rewrite !julian_date_from_march by lia.
      julian_date_to_Z.
      destruct Hd as [[? _] | [[? ->] | [? ->]]]; [lia | |];
        Z.to_euclidean_division_equations; lia.
Qed.

(** February 2024 has 29 days. *)
Lemma julian_date_month_length_feb_2024 :
  ymdhms_to_julian_date 2024 3 1 0 0 0
  = ymdhms_to_julian_date 2024 2 1 0 0 0 + IZR (days_in_month 2024 2).
Proof.
  apply (julian_date_month_length 2024 2 1 0 0 0); lia.
Defined.

(** X2: the Gregorian cycle.  Four hundred years later the Julian Date is
    146097 days larger, for any month, day and time field, provided the
    adjusted year is not before -4716 (so that the year term, which [int]
    truncates toward zero, is not negative). *)
Theorem julian_date_400_years
    (year month day hour minute : Z) (second : R) :
  (-4716 <= (if (month <=? 2)%Z then year - 1 else year))%Z ->
  ymdhms_to_julian_date (year + 400) month day hour minute second
  = ymdhms_to_julian_date year month day hour minute second + 146097.
Proof.
  intros HY. unfold ymdhms_to_julian_date, floordiv.
  destruct (month <=? 2)%Z.
  - rewrite !int_of_float_year_term by lia.
    set (mt := int_of_float _).
    match goal with
    | |- IZR ?a - ?c + ?t = IZR ?b - ?c + ?t + _ =>
        replace a with (b + 146097)%Z
          by (Z.to_euclidean_division_equations; lia)
    end.
    rewrite plus_IZR. lra.
  - rewrite !int_of_float_year_term by lia.
    set (mt := int_of_float _).
    match goal with
    | |- IZR ?a - ?c + ?t = IZR ?b - ?c + ?t + _ =>
        replace a with (b + 146097)%Z
          by (Z.to_euclidean_division_equations; lia)
    end.
    rewrite plus_IZR. lra.
Qed.

(** From 1 January 1624 to 1 January 2024. *)
Lemma julian_date_400_years_to_2024 :
  ymdhms_to_julian_date (1624 + 400) 1 1 0 0 0
  = ymdhms_to_julian_date 1624 1 1 0 0 0 + 146097.
Proof.
  apply (julian_date_400_years 1624 1 1 0 0 0). simpl. lia.
Defined.

(** X3: January and February are months 13 and 14 of the year before.
    The converter does not tell a month [m <= 2] of year [y] from month
    [m + 12] of year [y - 1], as long as [m + 12] is itself past February
    (for [m <= -10] the adjustment would apply a second time). *)
Theorem julian_date_month_13_14
    (year month day hour minute : Z) (second : R) :
  (-10 < month <= 2)%Z ->
  ymdhms_to_julian_date year month day hour minute second
  = ymdhms_to_julian_date (year - 1) (month + 12) day hour minute second.
Proof.
  intros Hm. unfold ymdhms_to_julian_date.
  destruct (Z.leb_spec month 2); [| lia].
  destruct (Z.leb_spec (month + 12) 2); [lia | reflexivity].
Qed.

(** February 2024 is month 14 of 2023. *)
Lemma julian_date_month_13_14_feb_2024 :
  ymdhms_to_julian_date 2024 2 29 0 0 0
  = ymdhms_to_julian_date (2024 - 1) (2 + 12) 29 0 0 0.
Proof.
  apply (julian_date_month_13_14 2024 2 29 0 0 0). lia.
Defined.


(** X5: Julian days begin at noon.  At midnight the Julian Date is a whole
    number plus one half, and with the time of day in range (hour 0-23,
    minute 0-59, second in [0, 60)) the Julian Date lies in the 24 hours
    that start there. *)
Theorem julian_date_time_of_day
    (year month day hour minute : Z) (second : R) :
  exists k : Z,
    ymdhms_to_julian_date year month day 0 0 0 = IZR k + 0.5
    /\ ((0 <= hour <= 23)%Z -> (0 <= minute <= 59)%Z -> 0 <= second < 60 ->
        IZR k + 0.5
        <= ymdhms_to_julian_date year month day hour minute second
        < IZR k + 1.5).
Proof.
  unfold ymdhms_to_julian_date.
  destruct (month <=? 2)%Z;
    match goal with
    | |- context [IZR ?n - 1524.5] => exists (n - 1525)%Z
    end;
    (split;
     [ rewrite minus_IZR; lra
     | intros [Hh0 Hh1] [Hm0 Hm1] Hs;
       apply IZR_le in Hh0, Hh1, Hm0, Hm1;
       rewrite minus_IZR; split; lra ]).
Qed.

(** The last second of 31 December 2023. *)
Lemma julian_date_time_of_day_2023 :
  exists k : Z,
    ymdhms_to_julian_date 2023 12 31 0 0 0 = IZR k + 0.5
    /\ IZR k + 0.5
       <= ymdhms_to_julian_date 2023 12 31 23 59 59 < IZR k + 1.5.
Proof.
  destruct (julian_date_time_of_day 2023 12 31 23 59 59) as [k [H0 H]].
  exists k. split; [exact H0 | apply H; lia || lra].
Defined.

(** ** Further properties of the rotation stage *)

Lemma cos_sin_whole_turns (x : R) (k : Z) :
  cos (x + 2 * IZR k * PI) = cos x /\ sin (x + 2 * IZR k * PI) = sin x.
Proof.
  assert (Hp : forall p, IZR (Z.pos p) = INR (Pos.to_nat p))
    by (intros p; now rewrite INR_IZR_INZ, positive_nat_Z).
  destruct k as [| p | p].
  - replace (x + 2 * 0 * PI) with x by ring. now split.
  - rewrite (Hp p). split; [apply cos_period | apply sin_period].
  - change (Z.neg p) with (- Z.pos p)%Z. rewrite opp_IZR, (Hp p).
    set (n := Pos.to_nat p).
    split.
    + rewrite <- (cos_period (x + 2 * - INR n * PI) n). f_equal. ring.
    + rewrite <- (sin_period (x + 2 * - INR n * PI) n). f_equal. ring.
Qed.

(** X6: rotations compose by adding their angles: rotating by [alpha] and
    then by [beta] is rotating by [alpha + beta]. *)
Theorem eci_to_ecef_compose (x y z alpha beta : R) :
  let '(x1, y1, z1) := eci_to_ecef x y z alpha in
  eci_to_ecef x1 y1 z1 beta = eci_to_ecef x y z (alpha + beta).
Proof.
  unfold eci_to_ecef. rewrite cos_plus, sin_plus.
  do 2 f_equal; ring.
Qed.

(** X7: a whole number of turns changes nothing: the operator has period
    [2 * PI] in the angle, in particular an angle that is not reduced to
    [0, 2*PI) rotates like the reduced one. *)
Theorem eci_to_ecef_whole_turns (x y z theta : R) (k : Z) :
  eci_to_ecef x y z (theta + 2 * IZR k * PI) = eci_to_ecef x y z theta.
Proof.
  unfold eci_to_ecef.
  destruct (cos_sin_whole_turns theta k) as [-> ->]. reflexivity.
Qed.

(** X8: the operator is an isometry: it keeps the inner product of any
    two vectors rotated by the same angle, hence lengths, distances and
    angles between position vectors. *)
Theorem eci_to_ecef_dot (x1 y1 z1 x2 y2 z2 theta : R) :
  dot (eci_to_ecef x1 y1 z1 theta) (eci_to_ecef x2 y2 z2 theta)
  = dot (x1, y1, z1) (x2, y2, z2).
Proof.
  unfold eci_to_ecef, dot.
  pose proof (sin2_cos2 theta) as H. unfold Rsqr in H.
  transitivity
    ((sin theta * sin theta + cos theta * cos theta) * (x1 * x2 + y1 * y2)
     + z1 * z2); [ring | rewrite H; ring].
Qed.

(** X9: the operator is linear in the vector: it maps a linear
    combination of two vectors to the same combination of their images. *)
Theorem eci_to_ecef_linear (a b x1 y1 z1 x2 y2 z2 theta : R) :
  let '(u1, v1, w1) := eci_to_ecef x1 y1 z1 theta in
  let '(u2, v2, w2) := eci_to_ecef x2 y2 z2 theta in
  eci_to_ecef (a * x1 + b * x2) (a * y1 + b * y2) (a * z1 + b * z2) theta
  = (a * u1 + b * u2, a * v1 + b * v2, a * w1 + b * w2).
Proof.
  unfold eci_to_ecef. do 2 f_equal; ring.
Qed.

(** ** The two later stages together *)

(** X10: the reduction of the sidereal time modulo 24 hours does not show
    in the rotated vector: rotating by the returned angle is rotating by
    the angle of the unreduced hour value (15 degrees per hour, minus the
    bias), because 24 hours are one whole turn. *)
Theorem eci_to_ecef_gst_unreduced (x y z julian_date : R) :
  let T := (julian_date - 2451545.0) / 36525.0 in
  let hours :=
    280.46061837 + 360.98564736629 * (julian_date - 2451545.0)
    + T * T * (0.000387933 - T / 38710000) in
  eci_to_ecef x y z (gst_from_julian_date julian_date)
  = eci_to_ecef x y z (radians (hours * 15) - 1.02581572).
Proof.
  intros T hours.
  assert (Hh : forall h3600 : R, h3600 = hours * 3600 / 3600 ->
               h3600 = hours) by (intros ? ->; field).
  unfold gst_from_julian_date, radians, float_mod. fold T. fold hours.
  rewrite (Hh (hours * 3600 / 3600) eq_refl).
  set (k := Zfloor (hours / 24)).
  replace ((hours - 24 * IZR k) * 15 * (PI / 180) - 1.02581572)
    with (hours * 15 * (PI / 180) - 1.02581572 + 2 * IZR (- k) * PI)
    by (rewrite opp_IZR; field).
  unfold eci_to_ecef.
  destruct (cos_sin_whole_turns (hours * 15 * (PI / 180) - 1.02581572) (- k))
    as [-> ->].
  reflexivity.
Qed.

(** ** Further properties of the driver *)

Section MainOutcomes.

Variable parse_int : string -> option Z.
Variable parse_float : string -> option R.
Variable float_str : R -> string.

Lemma ten_entries (l : list string) :
  List.length l = 10%nat ->
  exists a0 a1 a2 a3 a4 a5 a6 a7 a8 a9,
    l = [a0; a1; a2; a3; a4; a5; a6; a7; a8; a9].
Proof.
  intros H.
  do 10 (destruct l as [| ? l]; [discriminate|]).
  destruct l; [| discriminate].
  repeat eexists.
Qed.

(** The driver on a well-sized argument vector, parse by parse. *)
Lemma main_ten_entries (a0 a1 a2 a3 a4 a5 a6 a7 a8 a9 : string) out :
  main parse_int parse_float float_str
    [a0; a1; a2; a3; a4; a5; a6; a7; a8; a9] out
  = match parse_int a1 with None => (inl (ValueError a1), out) | Some year =>
    match parse_int a2 with None => (inl (ValueError a2), out) | Some month =>
    match parse_int a3 with None => (inl (ValueError a3), out) | Some day =>
    match parse_int a4 with None => (inl (ValueError a4), out) | Some hour =>
    match parse_int a5 with None => (inl (ValueError a5), out) | Some minute =>
    match parse_float a6 with None => (inl (ValueError a6), out) | Some second =>
    match parse_float a7 with None => (inl (ValueError a7), out) | Some x =>
    match parse_float a8 with None => (inl (ValueError a8), out) | Some y =>
    match parse_float a9 with None => (inl (ValueError a9), out) | Some z =>
      if Binary64.raises_overflow year month day hour minute
      then (inl OverflowError, out)
      else
        (inr tt,
         out ++
           let '(ecef_x_km, ecef_y_km, ecef_z_km) :=
             eci_to_ecef x y z
               (gst_from_julian_date
                  (ymdhms_to_julian_date year month day hour minute
                     second)) in
           [float_str ecef_x_km; float_str ecef_y_km; float_str ecef_z_km])
    end end end end end end end end end.
Proof.
  unfold main, bind, item, int_, float_, call_ymdhms_to_julian_date, ret,
    raise; simpl.
  destruct (parse_int a1); [| reflexivity].
  destruct (parse_int a2); [| reflexivity].
  destruct (parse_int a3); [| reflexivity].
  destruct (parse_int a4); [| reflexivity].
  destruct (parse_int a5); [| reflexivity].
  destruct (parse_float a6); [| reflexivity].
  destruct (parse_float a7); [| reflexivity].
  destruct (parse_float a8); [| reflexivity].
  destruct (parse_float a9); [| reflexivity].
  destruct (Binary64.raises_overflow _ _ _ _ _); [reflexivity|].
  unfold print. now rewrite <- !app_assoc.
Qed.

Ltac decide_parses :=
  repeat match goal with
    | H : match ?p with Some _ => true | None => false end = _ |- _ =>
        let E := fresh "E" in
        destruct p eqn:E; try discriminate H; clear H
    end.

(** X11: the successful run, both ways.  A run returns exactly when
    [sys.argv] has ten entries of which the first five after the program
    name parse as ints and the last four as floats, and the Julian Date
    stage does not raise [OverflowError] on the parsed time fields; it has
    then printed the three components of the rotated vector, in the
    order x, y, z, and nothing else. *)
Theorem main_returns_iff (sys_argv out out' : list string) :
  main parse_int parse_float float_str sys_argv out = (inr tt, out')
  <-> exists (year month day hour minute : Z)
             (second eci_x_km eci_y_km eci_z_km : R),
        List.length sys_argv = 10%nat
        /\ argument parse_int sys_argv 1 year
        /\ argument parse_int sys_argv 2 month
        /\ argument parse_int sys_argv 3 day
        /\ argument parse_int sys_argv 4 hour
        /\ argument parse_int sys_argv 5 minute
        /\ argument parse_float sys_argv 6 second
        /\ argument parse_float sys_argv 7 eci_x_km
        /\ argument parse_float sys_argv 8 eci_y_km
        /\ argument parse_float sys_argv 9 eci_z_km
        /\ Binary64.raises_overflow year month day hour minute = false
        /\ out' = out ++
             let '(ecef_x_km, ecef_y_km, ecef_z_km) :=
               eci_to_ecef eci_x_km eci_y_km eci_z_km
                 (gst_from_julian_date
                    (ymdhms_to_julian_date year month day hour minute
                       second)) in
             [float_str ecef_x_km; float_str ecef_y_km; float_str ecef_z_km].
Proof.
  split; [apply main_returns|].
  intros (year & month & day & hour & minute & second & x & y & z
          & Hlen & H1 & H2 & H3 & H4 & H5 & H6 & H7 & H8 & H9 & Hfits & ->).
  destruct (ten_entries _ Hlen)
    as (a0 & a1 & a2 & a3 & a4 & a5 & a6 & a7 & a8 & a9 & ->).
  unfold argument in *. simpl in *.
  destruct H1 as (? & [= <-] & P1). destruct H2 as (? & [= <-] & P2).
  destruct H3 as (? & [= <-] & P3). destruct H4 as (? & [= <-] & P4).
  destruct H5 as (? & [= <-] & P5). destruct H6 as (? & [= <-] & P6).
  destruct H7 as (? & [= <-] & P7). destruct H8 as (? & [= <-] & P8).
  destruct H9 as (? & [= <-] & P9).
  rewrite main_ten_entries, P1, P2, P3, P4, P5, P6, P7, P8, P9, Hfits.
  reflexivity.
Qed.

(** X12: a parse failure is fatal, silent on standard output, and reported
    for the leftmost offending argument.  On a well-sized [sys.argv], if
    entry [i] is rejected by its parser and every entry before it is
    accepted, the run raises [ValueError] for entry [i] and prints
    nothing, whatever the later entries are. *)
Theorem main_value_error_leftmost
    (sys_argv out : list string) (i : nat) (text : string) :
  List.length sys_argv = 10%nat ->
  (1 <= i <= 9)%nat ->
  nth_error sys_argv i = Some text ->
  accepts parse_int parse_float i text = false ->
  (forall j t, (1 <= j < i)%nat -> nth_error sys_argv j = Some t ->
               accepts parse_int parse_float j t = true) ->
  main parse_int parse_float float_str sys_argv out
  = (inl (ValueError text), out).
Proof.
  intros Hlen Hi Hnth Hrej Hprev.
  destruct (ten_entries _ Hlen)
    as (a0 & a1 & a2 & a3 & a4 & a5 & a6 & a7 & a8 & a9 & ->).
  rewrite main_ten_entries.
  assert (Hcases : (i = 1 \/ i = 2 \/ i = 3 \/ i = 4 \/ i = 5 \/ i = 6
                    \/ i = 7 \/ i = 8 \/ i = 9)%nat) by lia.
  repeat (destruct Hcases as [-> | Hcases]); try subst i;
    simpl in Hnth; injection Hnth as <-;
    try pose proof (Hprev 1%nat a1 ltac:(lia) eq_refl) as Q1;
    try pose proof (Hprev 2%nat a2 ltac:(lia) eq_refl) as Q2;
    try pose proof (Hprev 3%nat a3 ltac:(lia) eq_refl) as Q3;
    try pose proof (Hprev 4%nat a4 ltac:(lia) eq_refl) as Q4;
    try pose proof (Hprev 5%nat a5 ltac:(lia) eq_refl) as Q5;
    try pose proof (Hprev 6%nat a6 ltac:(lia) eq_refl) as Q6;
    try pose proof (Hprev 7%nat a7 ltac:(lia) eq_refl) as Q7;
    try pose proof (Hprev 8%nat a8 ltac:(lia) eq_refl) as Q8;
    clear Hprev;
    unfold accepts in *; simpl in *; decide_parses; reflexivity.
Qed.

Ltac value_error_outcome i a E Hm :=
  left; split; [reflexivity|];
  exists i, a;
  split; [lia|]; split; [reflexivity|];
  split; [unfold accepts; simpl; now rewrite E | exact Hm].

(** X13: the four ways a run can end, for every argument vector.
    Either [sys.argv] does not have ten entries, and the run prints the
    usage line and exits with status 1; or one of the entries 1 to 9 is
    rejected by its parser, and the run raises [ValueError] for such an
    entry without printing; or all nine entries parse and the Julian Date
    stage raises [OverflowError] on the parsed time fields, again without
    printing; or the run returns having printed exactly three lines.  No
    other exit status, no [IndexError], and no other amount of output
    occurs. *)
Theorem main_outcomes (sys_argv out : list string) :
  (List.length sys_argv <> 10%nat
   /\ main parse_int parse_float float_str sys_argv out
      = (inl (SystemExit 1), out ++ [usage]))
  \/ (List.length sys_argv = 10%nat
      /\ exists (i : nat) (text : string),
           (1 <= i <= 9)%nat
           /\ nth_error sys_argv i = Some text
           /\ accepts parse_int parse_float i text = false
           /\ main parse_int parse_float float_str sys_argv out
              = (inl (ValueError text), out))
  \/ (List.length sys_argv = 10%nat
      /\ (exists year month day hour minute : Z,
             argument parse_int sys_argv 1 year
             /\ argument parse_int sys_argv 2 month
             /\ argument parse_int sys_argv 3 day
             /\ argument parse_int sys_argv 4 hour
             /\ argument parse_int sys_argv 5 minute
             /\ Binary64.raises_overflow year month day hour minute = true)
      /\ main parse_int parse_float float_str sys_argv out
         = (inl OverflowError, out))
  \/ (List.length sys_argv = 10%nat
      /\ exists line_x line_y line_z : string,
           main parse_int parse_float float_str sys_argv out
           = (inr tt, out ++ [line_x; line_y; line_z])).
Proof.
  destruct (Nat.eq_dec (List.length sys_argv) 10) as [Hlen | Hlen].
  - right.
    destruct (ten_entries _ Hlen)
      as (a0 & a1 & a2 & a3 & a4 & a5 & a6 & a7 & a8 & a9 & ->).
    pose proof (main_ten_entries a0 a1 a2 a3 a4 a5 a6 a7 a8 a9 out) as Hm.
    destruct (parse_int a1) as [year |] eqn:E1;
      [| value_error_outcome 1%nat a1 E1 Hm].
    destruct (parse_int a2) as [month |] eqn:E2;
      [| value_error_outcome 2%nat a2 E2 Hm].
    destruct (parse_int a3) as [day |] eqn:E3;
      [| value_error_outcome 3%nat a3 E3 Hm].
    destruct (parse_int a4) as [hour |] eqn:E4;
      [| value_error_outcome 4%nat a4 E4 Hm].
    destruct (parse_int a5) as [minute |] eqn:E5;
      [| value_error_outcome 5%nat a5 E5 Hm].
    destruct (parse_float a6) eqn:E6; [| value_error_outcome 6%nat a6 E6 Hm].
    destruct (parse_float a7) eqn:E7; [| value_error_outcome 7%nat a7 E7 Hm].
    destruct (parse_float a8) eqn:E8; [| value_error_outcome 8%nat a8 E8 Hm].
    destruct (parse_float a9) eqn:E9; [| value_error_outcome 9%nat a9 E9 Hm].
    right.
    destruct (Binary64.raises_overflow year month day hour minute) eqn:Hover.
    + left. split; [reflexivity|]. split; [| exact Hm].
      exists year, month, day, hour, minute. unfold argument. simpl.
      repeat split; try (eexists; split; [reflexivity | assumption]).
      exact Hover.
    + right. split; [reflexivity|].
      unfold eci_to_ecef in Hm. do 3 eexists. exact Hm.
  - left. split; [assumption|].
    unfold main.
    assert (Hne : negb (List.length sys_argv =? 10)%nat = true)
      by now apply negb_true_iff, Nat.eqb_neq.
    rewrite Hne. reflexivity.
Qed.

(** X14: the overflow run.  When [sys.argv] has ten entries that all
    parse and the Julian Date stage raises [OverflowError] on the parsed
    time fields, the run raises that exception and prints nothing,
    whatever the seconds and the vector are. *)
Theorem main_overflow_error
    (sys_argv out : list string) (year month day hour minute : Z)
    (second eci_x_km eci_y_km eci_z_km : R) :
  List.length sys_argv = 10%nat ->
  argument parse_int sys_argv 1 year ->
  argument parse_int sys_argv 2 month ->
  argument parse_int sys_argv 3 day ->
  argument parse_int sys_argv 4 hour ->
  argument parse_int sys_argv 5 minute ->
  argument parse_float sys_argv 6 second ->
  argument parse_float sys_argv 7 eci_x_km ->
  argument parse_float sys_argv 8 eci_y_km ->
  argument parse_float sys_argv 9 eci_z_km ->
  Binary64.raises_overflow year month day hour minute = true ->
  main parse_int parse_float float_str sys_argv out
  = (inl OverflowError, out).
Proof.
  intros Hlen H1 H2 H3 H4 H5 H6 H7 H8 H9 Hover.
  destruct (ten_entries _ Hlen)
    as (a0 & a1 & a2 & a3 & a4 & a5 & a6 & a7 & a8 & a9 & ->).
  unfold argument in *. simpl in *.
  destruct H1 as (? & [= <-] & P1). destruct H2 as (? & [= <-] & P2).
  destruct H3 as (? & [= <-] & P3). destruct H4 as (? & [= <-] & P4).
  destruct H5 as (? & [= <-] & P5). destruct H6 as (? & [= <-] & P6).
  destruct H7 as (? & [= <-] & P7). destruct H8 as (? & [= <-] & P8).
  destruct H9 as (? & [= <-] & P9).
  rewrite main_ten_entries, P1, P2, P3, P4, P5, P6, P7, P8, P9, Hover.
  reflexivity.
Qed.

End MainOutcomes.

(** The concrete scenario parses, so its run returns with the three
    components. *)
Lemma main_returns_iff_scenario :
  main scenario_int scenario_float scenario_str scenario_argv []
  = (inr tt,
     [] ++
       let '(ecef_x_km, ecef_y_km, ecef_z_km) :=
         eci_to_ecef 7000 0 0
           (gst_from_julian_date (ymdhms_to_julian_date 2024 1 1 0 0 0)) in
       [scenario_str ecef_x_km; scenario_str ecef_y_km;
        scenario_str ecef_z_km]).
Proof.
  apply (proj2 (main_returns_iff scenario_int scenario_float scenario_str
                  scenario_argv [] _)).
  exists 2024%Z, 1%Z, 1%Z, 0%Z, 0%Z, 0, 7000, 0, 0.
  repeat split; try (eexists; split; reflexivity).
Defined.

(** The month given as a word: the run stops at it, although the year
    before it and every argument after it are numeric. *)
Lemma main_value_error_leftmost_month :
  main scenario_int scenario_float scenario_str
    ["eci_to_ecef.py"; "2024"; "Jan"; "1"; "0"; "0"; "0"; "7000"; "0"; "0"]%string
    []
  = (inl (ValueError "Jan"), []).
Proof.
  apply (main_value_error_leftmost scenario_int scenario_float scenario_str
           _ [] 2 "Jan").
  - reflexivity.
  - lia.
  - reflexivity.
  - reflexivity.
  - intros j t Hj Hn. assert (j = 1)%nat by lia. subst j.
    simpl in Hn. injection Hn as <-. reflexivity.
Defined.

(** A year of 401 digits: every argument parses, and the run ends in
    [OverflowError] with nothing printed. *)
Lemma main_overflow_error_huge_year :
  main decimal_int scenario_float scenario_str huge_year_argv []
  = (inl OverflowError, []).
Proof.
  apply (main_overflow_error decimal_int scenario_float scenario_str
           huge_year_argv [] (10 ^ 400) 1 1 0 0 0 7000 0 0);
    first [ reflexivity | eexists; split; reflexivity ].
Defined.
